(** * The cluster actuator of the Azure provider

    A shallow embedding of [pkg/cloud/azure/actuators/cluster/actuator.go]:
    the two operations [Reconcile] and [Delete] of the cluster [Actuator],
    written as programs of a small monad that threads the store and records
    every call the actuator makes to a collaborator (scope construction and
    release, service construction, service operations, logging).

    The collaborators themselves ([actuators.NewScope], the [network],
    [resources] and [certificates] services, [klog]) live in other packages.
    Their behaviour is a parameter of the development: every theorem holds
    for all of them. *)

From Stdlib Require Import String List ZArith Lia Bool.
Import ListNotations.
Local Open Scope string_scope.

(** ** Errors

    Go's [error] is an interface value that may be [nil].  The non-nil
    values that occur at this layer are the ones [github.com/pkg/errors]
    builds and the controller's requeue signal:
    - [fundamental] is what [errors.Errorf] (and [errors.New]) returns: a
      message, given as its format string and arguments, without a cause;
    - [withMessage] is what [errors.Wrapf] returns: a cause and a message;
    - [RequeueAfterError] is [controllerError.RequeueAfterError], whose
      only field is a [time.Duration] (an [int64] count of nanoseconds).
    The call to [fmt.Sprintf] inside [Errorf] and [Wrapf] is kept as data:
    the format string and the list of its arguments. *)

Inductive Err : Type :=
| fundamental (format : string) (args : list farg)
| withMessage (cause : Err) (format : string) (args : list farg)
| RequeueAfterError (RequeueAfter : Z)
with farg : Type :=
| AString (s : string)
| AError (e : Err).

(** [error] with [nil] as [None]. *)
Definition error : Type := option Err.

(** [errors.Errorf(format, args...)]: never nil. *)
Definition errors_Errorf (format : string) (args : list farg) : error :=
  Some (fundamental format args).

(** [errors.Wrapf(err, format, args...)]: nil when [err] is nil. *)
Definition errors_Wrapf (err : error) (format : string) (args : list farg) : error :=
  match err with
  | None => None
  | Some e => Some (withMessage e format args)
  end.

(** The error directly under a wrapper (the [cause] field of [withMessage]). *)
Definition Unwrap (e : Err) : option Err :=
  match e with
  | withMessage c _ _ => Some c
  | _ => None
  end.

(** [errors.Cause]: follow the causes down to the first error that has none. *)
Fixpoint Cause (e : Err) : Err :=
  match e with
  | withMessage c _ _ => Cause c
  | _ => e
  end.

(** The type test on [controllerError.RequeueAfterError] by which the
    calling controller tells a requeue signal from a terminal error. *)
Definition is_RequeueAfterError (e : Err) : bool :=
  match e with
  | RequeueAfterError _ => true
  | _ => false
  end.

(** [time.Duration] is an [int64]. *)
Definition int64_min : Z := - 2 ^ 63.
Definition int64_max : Z := 2 ^ 63 - 1.
Definition is_Duration (d : Z) : Prop := (int64_min <= d <= int64_max)%Z.

(** [time.Second], in nanoseconds. *)
Definition time_Second : Z := 1000000000.

(** The constant expression [5 * 1000 * 1000 * 1000] of [Delete]. *)
Definition requeue_delay : Z := 5 * 1000 * 1000 * 1000.

(** ** Objects and the store *)

(** Pointers are addresses.  Go has no dangling pointers: a non-nil pointer
    always designates a live object, so a heap is a total map. *)
Definition ptr : Type := nat.

(** The types this file imports from other packages. *)
Record Imports : Type := {
  (** everything the collaborators own: provider resources, sessions, the API server *)
  World : Type;
  (** [*actuators.Scope] *)
  Scope : Type;
  (** [*network.Service], [*resources.Service], [*certificates.Service] *)
  NetworkService : Type;
  ResourcesService : Type;
  CertificatesService : Type;
  (** [client.ClusterV1alpha1Interface] *)
  ClusterV1alpha1Interface : Type;
  (** [deployer.Deployer] *)
  DeployerT : Type;
  (** the spec and status payload of a [clusterv1.Cluster] *)
  ClusterData : Type
}.

Section Actuator.

Context {T : Imports}.

(** [clusterv1.Cluster]: the actuator reads its [Name] only. *)
Record Cluster : Type := {
  Name : string;
  Spec : ClusterData T;
  Status : ClusterData T
}.

(** [Actuator]: the embedded deployer and the client. *)
Record Actuator : Type := {
  Deployer : DeployerT T;
  client : ClusterV1alpha1Interface T
}.

(** [actuators.ScopeParams], as the actuator fills it: the cluster pointer
    and the client. *)
Record ScopeParams : Type := {
  ScopeParams_Cluster : ptr;
  ScopeParams_Client : ClusterV1alpha1Interface T
}.

(** The store: the actuators and clusters on the heap, and the world of the
    collaborators. *)
Record Store : Type := {
  actuators : ptr -> Actuator;
  clusters : ptr -> Cluster;
  world : World T
}.

(** ** Calls to collaborators *)

Inductive Call : Type :=
| call_klog_Infof (format : string) (args : list farg)
| call_klog_Errorf (format : string) (args : list farg)
| call_NewScope (params : ScopeParams)
| call_Close (scope : Scope T)
| call_network_NewService (scope : Scope T)
| call_resources_NewService (scope : Scope T)
| call_certificates_NewService (scope : Scope T)
| call_ReconcileCertificates (svc : CertificatesService T)
| call_ReconcileResourceGroup (svc : ResourcesService T)
| call_ReconcileNetwork (svc : NetworkService T)
| call_ReconcileLoadBalancer (svc : NetworkService T) (role : string)
| call_DeleteResourceGroup (svc : ResourcesService T).

(** One entry of the history: the call, the error it returned ([None] for
    nil and for calls that return no error) and the store it left. *)
Record Event : Type := {
  ev_call : Call;
  ev_err : error;
  ev_store : Store
}.

(** What the collaborators do.  Each one receives the store (it may follow
    the cluster pointer it was given, reach the provider, ...) and returns
    its result with the store it leaves.  [NewScope] returns Go's pair
    [(scope, err)], of which the actuator uses [err] when it is not nil and
    [scope] otherwise: an error or a scope.  The operations of the services
    return an [error].  A collaborator that panics is not modelled. *)
Record Collaborators : Type := {
  on_NewScope : ScopeParams -> Store -> (Err + Scope T) * Store;
  on_Close : Scope T -> Store -> Store;
  on_network_NewService : Scope T -> Store -> NetworkService T * Store;
  on_resources_NewService : Scope T -> Store -> ResourcesService T * Store;
  on_certificates_NewService : Scope T -> Store -> CertificatesService T * Store;
  on_ReconcileCertificates : CertificatesService T -> Store -> error * Store;
  on_ReconcileResourceGroup : ResourcesService T -> Store -> error * Store;
  on_ReconcileNetwork : NetworkService T -> Store -> error * Store;
  on_ReconcileLoadBalancer : NetworkService T -> string -> Store -> error * Store;
  on_DeleteResourceGroup : ResourcesService T -> Store -> error * Store
}.

(** ** The monad: a store threaded through, and a history written *)

Record Outcome (A : Type) : Type := {
  value : A;
  events : list Event;
  final : Store
}.

Definition M (A : Type) : Type := Store -> Outcome A.

Definition ret {A : Type} (a : A) : M A :=
  fun s => {| value := a; events := []; final := s |}.

Definition bind {A B : Type} (c : M A) (k : A -> M B) : M B :=
  fun s =>
    match c s with
    | {| value := a; events := evs1; final := s1 |} =>
      match k a s1 with
      | {| value := b; events := evs2; final := s2 |} =>
        {| value := b; events := (evs1 ++ evs2)%list; final := s2 |}
      end
    end.

(** Reading a field through a pointer. *)
Definition load {A : Type} (f : Store -> A) : M A :=
  fun s => {| value := f s; events := []; final := s |}.

(** Calling a collaborator: run it on the store and record the call. *)
Definition invoke {A : Type} (c : Call) (err_of : A -> error)
    (h : Store -> A * Store) : M A :=
  fun s =>
    let '(a, s') := h s in
    {| value := a;
       events := [{| ev_call := c; ev_err := err_of a; ev_store := s' |}];
       final := s' |}.

(** [defer d] in front of [body]: [body] runs, its result is computed, then
    [d] runs, then the function returns that result. *)
Definition defer {A : Type} (d : M unit) (body : M A) : M A :=
  bind body (fun r => bind d (fun _ => ret r)).

End Actuator.

Arguments Cluster T : clear implicits.
Arguments Actuator T : clear implicits.
Arguments ScopeParams T : clear implicits.
Arguments Store T : clear implicits.
Arguments Call T : clear implicits.
Arguments Event T : clear implicits.
Arguments Collaborators T : clear implicits.
Arguments Outcome T A : clear implicits.
Arguments value {T A} _.
Arguments events {T A} _.
Arguments final {T A} _.
Arguments M T A : clear implicits.

Declare Scope go_scope.
Delimit Scope go_scope with go.

Notation "x <- c ;; k" := (bind c (fun x => k))
  (at level 100, c at next level, right associativity) : go_scope.
Notation "c ;; k" := (bind c (fun _ => k))
  (at level 100, right associativity) : go_scope.

(** Go's [if err := c; err != nil { return h }], followed by [k]. *)
Notation "'if_err' e <- c 'return_' h ;; k" :=
  (bind c (fun r => match r with Some e => h | None => k end))
  (at level 100, e name, c at next level, h at next level,
   right associativity) : go_scope.

Local Open Scope go_scope.

(** ** The operations of the actuator *)

Section Operations.

Context {T : Imports} (env : Collaborators T).

(** [klog.Infof] and [klog.Errorf] write a line of the log. *)
Definition klog_Infof (format : string) (args : list farg) : M T unit :=
  invoke (call_klog_Infof format args) (fun _ => None) (fun s => (tt, s)).

Definition klog_Errorf (format : string) (args : list farg) : M T unit :=
  invoke (call_klog_Errorf format args) (fun _ => None) (fun s => (tt, s)).

(** [actuators.NewScope(params)] returns a scope or an error. *)
Definition actuators_NewScope (params : ScopeParams T) : M T (Err + Scope T) :=
  invoke (call_NewScope params)
         (fun r => match r with inl e => Some e | inr _ => None end)
         (on_NewScope env params).

(** [scope.Close()] returns nothing. *)
Definition scope_Close (scope : Scope T) : M T unit :=
  invoke (call_Close scope) (fun _ => None)
         (fun s => (tt, on_Close env scope s)).

Definition network_NewService (scope : Scope T) : M T (NetworkService T) :=
  invoke (call_network_NewService scope) (fun _ => None)
         (on_network_NewService env scope).

Definition resources_NewService (scope : Scope T) : M T (ResourcesService T) :=
  invoke (call_resources_NewService scope) (fun _ => None)
         (on_resources_NewService env scope).

Definition certificates_NewService (scope : Scope T) : M T (CertificatesService T) :=
  invoke (call_certificates_NewService scope) (fun _ => None)
         (on_certificates_NewService env scope).

Definition ReconcileCertificates (svc : CertificatesService T) : M T error :=
  invoke (call_ReconcileCertificates svc) (fun r => r)
         (on_ReconcileCertificates env svc).

Definition ReconcileResourceGroup (svc : ResourcesService T) : M T error :=
  invoke (call_ReconcileResourceGroup svc) (fun r => r)
         (on_ReconcileResourceGroup env svc).

Definition ReconcileNetwork (svc : NetworkService T) : M T error :=
  invoke (call_ReconcileNetwork svc) (fun r => r)
         (on_ReconcileNetwork env svc).

Definition ReconcileLoadBalancer (svc : NetworkService T) (role : string) : M T error :=
  invoke (call_ReconcileLoadBalancer svc role) (fun r => r)
         (on_ReconcileLoadBalancer env svc role).

Definition DeleteResourceGroup (svc : ResourcesService T) : M T error :=
  invoke (call_DeleteResourceGroup svc) (fun r => r)
         (on_DeleteResourceGroup env svc).

(** [cluster.Name] and [a.client], read through the pointers. *)
Definition cluster_Name (cluster : ptr) : M T string :=
  load (fun s => Name (clusters s cluster)).

Definition a_client (a : ptr) : M T (ClusterV1alpha1Interface T) :=
  load (fun s => client (actuators s a)).

(** [func (a *Actuator) Reconcile(cluster *clusterv1.Cluster) error] *)
Definition Reconcile (a : ptr) (cluster : ptr) : M T error :=
  name <- cluster_Name cluster ;;
  klog_Infof "Reconciling cluster %v" [AString name] ;;
  c <- a_client a ;;
  r <- actuators_NewScope
         {| ScopeParams_Cluster := cluster; ScopeParams_Client := c |} ;;
  match r with
  | inl err => ret (errors_Errorf "failed to create scope: %+v" [AError err])
  | inr scope =>
    defer (scope_Close scope) (
      networkSvc <- network_NewService scope ;;
      resourcesSvc <- resources_NewService scope ;;
      certSvc <- certificates_NewService scope ;;
      if_err err <- ReconcileCertificates certSvc return_
        (name <- cluster_Name cluster ;;
         ret (errors_Wrapf (Some err)
                "failed to reconcile certificates for cluster %q" [AString name])) ;;
      if_err err <- ReconcileResourceGroup resourcesSvc return_
        (name <- cluster_Name cluster ;;
         ret (errors_Wrapf (Some err)
                "failed to reconcile resource group for cluster %q" [AString name])) ;;
      if_err err <- ReconcileNetwork networkSvc return_
        (name <- cluster_Name cluster ;;
         ret (errors_Wrapf (Some err)
                "failed to reconcile network for cluster %q" [AString name])) ;;
      if_err err <- ReconcileLoadBalancer networkSvc "api" return_
        (name <- cluster_Name cluster ;;
         ret (errors_Wrapf (Some err)
                "failed to reconcile load balancers for cluster %q" [AString name])) ;;
      ret None)
  end.

(** [func (a *Actuator) Delete(cluster *clusterv1.Cluster) error] *)
Definition Delete (a : ptr) (cluster : ptr) : M T error :=
  name <- cluster_Name cluster ;;
  klog_Infof "Reconciling cluster %v" [AString name] ;;
  c <- a_client a ;;
  r <- actuators_NewScope
         {| ScopeParams_Cluster := cluster; ScopeParams_Client := c |} ;;
  match r with
  | inl err => ret (errors_Errorf "failed to create scope: %+v" [AError err])
  | inr scope =>
    defer (scope_Close scope) (
      resourcesSvc <- resources_NewService scope ;;
      if_err err <- DeleteResourceGroup resourcesSvc return_
        (klog_Errorf "Error deleting resource group: %v." [AError err] ;;
         ret (Some (RequeueAfterError requeue_delay))) ;;
      ret None)
  end.

End Operations.

(** ** The constructor of the actuator *)

(** [ActuatorParams]: the client. *)
Record ActuatorParams (T : Imports) : Type := {
  ActuatorParams_Client : ClusterV1alpha1Interface T
}.
Arguments ActuatorParams_Client {T} _.

(** [deployer.Params], as the actuator fills it: the scope getter. *)
Record deployer_Params (G : Type) : Type := {
  Params_ScopeGetter : G
}.
Arguments Params_ScopeGetter {G} _.

Section Constructor.

(** [actuators.DefaultScopeGetter], of a type [G] of scope getters, and
    [deployer.New] come from other packages. *)
Context {T : Imports} {G : Type}.
Variable actuators_DefaultScopeGetter : G.
Variable deployer_New : deployer_Params G -> DeployerT T.

(** [func NewActuator(params ActuatorParams) *Actuator]: the actuator it
    builds.  The pointer it returns is the address this value is stored at
    in [actuators]. *)
Definition NewActuator (params : ActuatorParams T) : Actuator T :=
  {| Deployer := deployer_New {| Params_ScopeGetter := actuators_DefaultScopeGetter |};
     client := ActuatorParams_Client params |}.

End Constructor.

(** ** Reading a history *)

Section History.

Context {T : Imports}.

(** The calls of a history, in order. *)
Definition calls (evs : list (Event T)) : list (Call T) := map ev_call evs.

(** The release of a scope. *)
Definition is_Close (c : Call T) : bool :=
  match c with
  | call_Close _ => true
  | _ => false
  end.

(** The operations of the three services. *)
Definition is_service_operation (c : Call T) : bool :=
  match c with
  | call_ReconcileCertificates _
  | call_ReconcileResourceGroup _
  | call_ReconcileNetwork _
  | call_ReconcileLoadBalancer _ _
  | call_DeleteResourceGroup _ => true
  | _ => false
  end.

(** The construction of a service, or one of its operations. *)
Definition is_service_call (c : Call T) : bool :=
  match c with
  | call_network_NewService _
  | call_resources_NewService _
  | call_certificates_NewService _ => true
  | _ => is_service_operation c
  end.

(** The deletion of the resource group. *)
Definition is_DeleteResourceGroup (c : Call T) : bool :=
  match c with
  | call_DeleteResourceGroup _ => true
  | _ => false
  end.

(** The parameters [Reconcile] and [Delete] build the scope from. *)
Definition scope_params (a cluster : ptr) (s : Store T) : ScopeParams T :=
  {| ScopeParams_Cluster := cluster;
     ScopeParams_Client := client (actuators s a) |}.

(** The line both operations log first. *)
Definition first_line (cluster : ptr) (s : Store T) : Call T :=
  call_klog_Infof "Reconciling cluster %v" [AString (Name (clusters s cluster))].

(** The collaborators leave an observation [f] of the store as it is. *)
Definition preserve {A : Type} (env : Collaborators T) (f : Store T -> A) : Prop :=
  (forall p s, f (snd (on_NewScope env p s)) = f s) /\
  (forall scope s, f (on_Close env scope s) = f s) /\
  (forall scope s, f (snd (on_network_NewService env scope s)) = f s) /\
  (forall scope s, f (snd (on_resources_NewService env scope s)) = f s) /\
  (forall scope s, f (snd (on_certificates_NewService env scope s)) = f s) /\
  (forall svc s, f (snd (on_ReconcileCertificates env svc s)) = f s) /\
  (forall svc s, f (snd (on_ReconcileResourceGroup env svc s)) = f s) /\
  (forall svc s, f (snd (on_ReconcileNetwork env svc s)) = f s) /\
  (forall svc role s, f (snd (on_ReconcileLoadBalancer env svc role s)) = f s) /\
  (forall svc s, f (snd (on_DeleteResourceGroup env svc s)) = f s).

(** What a call does to the store: nothing for a line of the log, what the
    collaborator does for the others. *)
Definition effect (env : Collaborators T) (c : Call T) (s : Store T) : Store T :=
  match c with
  | call_klog_Infof _ _ => s
  | call_klog_Errorf _ _ => s
  | call_NewScope params => snd (on_NewScope env params s)
  | call_Close scope => on_Close env scope s
  | call_network_NewService scope => snd (on_network_NewService env scope s)
  | call_resources_NewService scope => snd (on_resources_NewService env scope s)
  | call_certificates_NewService scope => snd (on_certificates_NewService env scope s)
  | call_ReconcileCertificates svc => snd (on_ReconcileCertificates env svc s)
  | call_ReconcileResourceGroup svc => snd (on_ReconcileResourceGroup env svc s)
  | call_ReconcileNetwork svc => snd (on_ReconcileNetwork env svc s)
  | call_ReconcileLoadBalancer svc role => snd (on_ReconcileLoadBalancer env svc role s)
  | call_DeleteResourceGroup svc => snd (on_DeleteResourceGroup env svc s)
  end.

(** The store after a sequence of calls. *)
Fixpoint replay (env : Collaborators T) (cs : list (Call T)) (s : Store T) : Store T :=
  match cs with
  | [] => s
  | c :: cs' => replay env cs' (effect env c s)
  end.

End History.

(** The reconciliation steps, by name. *)
Inductive Step : Type :=
| step_certificates
| step_resource_group
| step_network
| step_load_balancer (role : string).

Definition step_of_call {T : Imports} (c : Call T) : option Step :=
  match c with
  | call_ReconcileCertificates _ => Some step_certificates
  | call_ReconcileResourceGroup _ => Some step_resource_group
  | call_ReconcileNetwork _ => Some step_network
  | call_ReconcileLoadBalancer _ role => Some (step_load_balancer role)
  | _ => None
  end.

(** The reconciliation steps of a history, each with its entry. *)
Definition step_events {T : Imports} (evs : list (Event T)) : list (Step * Event T) :=
  flat_map (fun ev => match step_of_call (ev_call ev) with
                      | Some st => [(st, ev)]
                      | None => []
                      end) evs.

(** The order of the steps in [Reconcile], and the format of the message
    that wraps the failure of each. *)
Definition reconcile_order : list Step :=
  [step_certificates; step_resource_group; step_network; step_load_balancer "api"].

Definition failure_format (st : Step) : string :=
  match st with
  | step_certificates => "failed to reconcile certificates for cluster %q"
  | step_resource_group => "failed to reconcile resource group for cluster %q"
  | step_network => "failed to reconcile network for cluster %q"
  | step_load_balancer _ => "failed to reconcile load balancers for cluster %q"
  end.

Section Shapes.

Context {T : Imports}.

(** A line of the log. *)
Definition is_log (c : Call T) : bool :=
  match c with
  | call_klog_Infof _ _ => true
  | call_klog_Errorf _ _ => true
  | _ => false
  end.

(** The line [Delete] writes after an entry of the history: one for a
    deletion of the resource group that returned an error, none otherwise. *)
Definition deletion_error_line (ev : Event T) : list (Call T) :=
  match ev_call ev, ev_err ev with
  | call_DeleteResourceGroup _, Some err =>
      [call_klog_Errorf "Error deleting resource group: %v." [AError err]]
  | _, _ => []
  end.

(** The call of a step, on the service [Reconcile] invokes it on. *)
Definition step_call (networkSvc : NetworkService T)
    (resourcesSvc : ResourcesService T) (certSvc : CertificatesService T)
    (st : Step) : Call T :=
  match st with
  | step_certificates => call_ReconcileCertificates certSvc
  | step_resource_group => call_ReconcileResourceGroup resourcesSvc
  | step_network => call_ReconcileNetwork networkSvc
  | step_load_balancer role => call_ReconcileLoadBalancer networkSvc role
  end.

(** The stores a sequence of calls goes through, one after each call. *)
Fixpoint stores_along (env : Collaborators T) (cs : list (Call T)) (s : Store T)
    : list (Store T) :=
  match cs with
  | [] => []
  | c :: cs' => effect env c s :: stores_along env cs' (effect env c s)
  end.

(** The same collaborators, with another [Close]. *)
Definition with_Close (env : Collaborators T) (close : Scope T -> Store T -> Store T)
    : Collaborators T :=
  {| on_NewScope := on_NewScope env;
     on_Close := close;
     on_network_NewService := on_network_NewService env;
     on_resources_NewService := on_resources_NewService env;
     on_certificates_NewService := on_certificates_NewService env;
     on_ReconcileCertificates := on_ReconcileCertificates env;
     on_ReconcileResourceGroup := on_ReconcileResourceGroup env;
     on_ReconcileNetwork := on_ReconcileNetwork env;
     on_ReconcileLoadBalancer := on_ReconcileLoadBalancer env;
     on_DeleteResourceGroup := on_DeleteResourceGroup env |}.

End Shapes.

(** ** Test doubles

    Scripted collaborators: each operation returns what the script says and
    appends its name to a journal, the only thing it changes. *)

Definition Doubles : Imports := {|
  World := list string;
  Scope := nat;
  NetworkService := nat;
  ResourcesService := nat;
  CertificatesService := nat;
  ClusterV1alpha1Interface := nat;
  DeployerT := unit;
  ClusterData := string
|}.

Record Script : Type := {
  scope_result : error;
  certificates_result : error;
  resource_group_result : error;
  network_result : error;
  load_balancer_result : error;
  delete_result : error
}.

Definition journal (op : string) (s : Store Doubles) : Store Doubles :=
  {| actuators := actuators s; clusters := clusters s; world := (world s ++ [op])%list |}.

Definition scripted (sc : Script) : Collaborators Doubles := {|
  on_NewScope := fun p s =>
    (match scope_result sc with
     | Some e => inl e
     | None => inr (ScopeParams_Cluster p)
     end, journal "NewScope" s);
  on_Close := fun _ s => journal "Close" s;
  on_network_NewService := fun scope s => (scope, s);
  on_resources_NewService := fun scope s => (scope, s);
  on_certificates_NewService := fun scope s => (scope, s);
  on_ReconcileCertificates := fun _ s =>
    (certificates_result sc, journal "ReconcileCertificates" s);
  on_ReconcileResourceGroup := fun _ s =>
    (resource_group_result sc, journal "ReconcileResourceGroup" s);
  on_ReconcileNetwork := fun _ s =>
    (network_result sc, journal "ReconcileNetwork" s);
  on_ReconcileLoadBalancer := fun _ role s =>
    (load_balancer_result sc, journal ("ReconcileLoadBalancer " ++ role) s);
  on_DeleteResourceGroup := fun _ s =>
    (delete_result sc, journal "DeleteResourceGroup" s)
|}.

(** The script on which everything succeeds, and scripts with one failure. *)
Definition all_succeed : Script := {|
  scope_result := None;
  certificates_result := None;
  resource_group_result := None;
  network_result := None;
  load_balancer_result := None;
  delete_result := None
|}.

Definition boom : Err := fundamental "boom" [].

Definition scope_fails : Script := {|
  scope_result := Some boom;
  certificates_result := None;
  resource_group_result := None;
  network_result := None;
  load_balancer_result := None;
  delete_result := None
|}.

Definition certificates_fail : Script := {|
  scope_result := None;
  certificates_result := Some boom;
  resource_group_result := None;
  network_result := None;
  load_balancer_result := None;
  delete_result := None
|}.

Definition network_fails : Script := {|
  scope_result := None;
  certificates_result := None;
  resource_group_result := None;
  network_result := Some boom;
  load_balancer_result := None;
  delete_result := None
|}.

Definition delete_fails : Script := {|
  scope_result := None;
  certificates_result := None;
  resource_group_result := None;
  network_result := None;
  load_balancer_result := None;
  delete_result := Some boom
|}.

(** The load balancer step asks for a retry. *)
Definition load_balancer_requeues : Script := {|
  scope_result := None;
  certificates_result := None;
  resource_group_result := None;
  network_result := None;
  load_balancer_result := Some (RequeueAfterError 30);
  delete_result := None
|}.

(** A store with one actuator and one cluster. *)
Definition store0 : Store Doubles := {|
  actuators := fun _ => @Build_Actuator Doubles tt 7;
  clusters := fun _ => @Build_Cluster Doubles "test-cluster" "spec" "status";
  world := []
|}.

(** The entries the failing calls leave in the history. *)
Definition network_failure : Event Doubles := {|
  ev_call := @call_ReconcileNetwork Doubles 2;
  ev_err := Some boom;
  ev_store :=
    journal "ReconcileNetwork"
      (journal "ReconcileResourceGroup"
         (journal "ReconcileCertificates" (journal "NewScope" store0)))
|}.

Definition deletion_failure : Event Doubles := {|
  ev_call := @call_DeleteResourceGroup Doubles 2;
  ev_err := Some boom;
  ev_store := journal "DeleteResourceGroup" (journal "NewScope" store0)
|}.

(** ** Running the operations on the doubles *)

Example Reconcile_all_succeed :
  let out := Reconcile (scripted all_succeed) 1 2 store0 in
  value out = None /\
  world (final out) =
    ["NewScope"; "ReconcileCertificates"; "ReconcileResourceGroup";
     "ReconcileNetwork"; "ReconcileLoadBalancer api"; "Close"].
Proof. split; reflexivity. Qed.

Example Reconcile_network_fails :
  let out := Reconcile (scripted network_fails) 1 2 store0 in
  value out = Some (withMessage boom "failed to reconcile network for cluster %q"
                                [AString "test-cluster"]) /\
  world (final out) =
    ["NewScope"; "ReconcileCertificates"; "ReconcileResourceGroup";
     "ReconcileNetwork"; "Close"].
Proof. split; reflexivity. Qed.

Example Delete_fails :
  let out := Delete (scripted delete_fails) 1 2 store0 in
  value out = Some (RequeueAfterError 5000000000) /\
  world (final out) = ["NewScope"; "DeleteResourceGroup"; "Close"].
Proof. split; reflexivity. Qed.

Example Delete_scope_fails :
  let out := Delete (scripted scope_fails) 1 2 store0 in
  value out = Some (fundamental "failed to create scope: %+v" [AError boom]) /\
  world (final out) = ["NewScope"].
Proof. split; reflexivity. Qed.

(** ** Properties *)

(** Symbolic execution: unfold the program, then run it call by call,
    using what is known of a collaborator's result or splitting on it. *)
Ltac unfold_ops :=
  unfold Reconcile, Delete, defer, cluster_Name, a_client,
    klog_Infof, klog_Errorf, actuators_NewScope, scope_Close,
    network_NewService, resources_NewService, certificates_NewService,
    ReconcileCertificates, ReconcileResourceGroup, ReconcileNetwork,
    ReconcileLoadBalancer, DeleteResourceGroup,
    bind, invoke, load, ret, scope_params, first_line in *.

Ltac run_call :=
  match goal with
  | H : ?h = (_, _) |- context [let '(_, _) := ?h in _] => rewrite H
  | |- context [let '(_, _) := ?h in _] => destruct h as [? ?] eqn:?
  | |- context [match ?r with inl _ => _ | inr _ => _ end] => destruct r
  | |- context [match ?r with Some _ => _ | None => _ end] => destruct r
  end; cbn.

Ltac run := unfold_ops; cbn; repeat run_call.


Section Properties.

Context {T : Imports} (env : Collaborators T).

(** C3. When the construction of the scope fails with [err], [Reconcile]
    and [Delete] both return the non-nil error
    [Errorf("failed to create scope: %+v", err)] at once: besides the log
    line and [NewScope] itself they call nothing, so no service is built
    and no service operation is invoked. *)
Theorem scope_failure_returns_at_once (a cluster : ptr) (s s1 : Store T) (err : Err) :
  on_NewScope env (scope_params a cluster s) s = (inl err, s1) ->
  let failure := errors_Errorf "failed to create scope: %+v" [AError err] in
  let only := [first_line cluster s; call_NewScope (scope_params a cluster s)] in
  failure <> None /\
  (value (Reconcile env a cluster s) = failure /\
   calls (events (Reconcile env a cluster s)) = only /\
   filter is_service_call (calls (events (Reconcile env a cluster s))) = [] /\
   final (Reconcile env a cluster s) = s1) /\
  (value (Delete env a cluster s) = failure /\
   calls (events (Delete env a cluster s)) = only /\
   filter is_service_call (calls (events (Delete env a cluster s))) = [] /\
   final (Delete env a cluster s) = s1).
Proof.
  intros Hscope failure only.
  split; [discriminate|].
  split; run; repeat split; reflexivity.
Qed.

(** C6. When the scope is built and the four steps (certificates, resource
    group, network, load balancer) return nil, [Reconcile] returns nil. *)
Theorem Reconcile_returns_nil_on_success
    (a cluster : ptr) (s s1 s2 s3 s4 s5 s6 s7 s8 : Store T) (scope : Scope T)
    (networkSvc : NetworkService T) (resourcesSvc : ResourcesService T)
    (certSvc : CertificatesService T) :
  on_NewScope env (scope_params a cluster s) s = (inr scope, s1) ->
  on_network_NewService env scope s1 = (networkSvc, s2) ->
  on_resources_NewService env scope s2 = (resourcesSvc, s3) ->
  on_certificates_NewService env scope s3 = (certSvc, s4) ->
  on_ReconcileCertificates env certSvc s4 = (None, s5) ->
  on_ReconcileResourceGroup env resourcesSvc s5 = (None, s6) ->
  on_ReconcileNetwork env networkSvc s6 = (None, s7) ->
  on_ReconcileLoadBalancer env networkSvc "api" s7 = (None, s8) ->
  value (Reconcile env a cluster s) = None /\
  final (Reconcile env a cluster s) = on_Close env scope s8.
Proof.
  intros Hscope Hnet Hres Hcert H1 H2 H3 H4.
  run. split; reflexivity.
Qed.



(** C9. [Reconcile] and [Delete] call [Close] as many times as they got a
    scope: not at all when [NewScope] returned an error, once when it
    returned a scope. *)
Theorem scope_closed_iff_acquired (a cluster : ptr) (s : Store T) :
  let acquired :=
    match fst (on_NewScope env (scope_params a cluster s) s) with
    | inl _ => 0
    | inr _ => 1
    end in
  length (filter is_Close (calls (events (Reconcile env a cluster s)))) = acquired /\
  length (filter is_Close (calls (events (Delete env a cluster s)))) = acquired.
Proof.
  intros acquired. subst acquired.
  split; run; reflexivity.
Qed.

(** C7. The only service [Delete] builds is the resources service and the
    only service operation it invokes is the deletion of the resource
    group (once, when the scope is built; none otherwise): it calls no
    operation of the network service and builds none. *)
Theorem Delete_deletes_resource_group_only (a cluster : ptr) (s : Store T) :
  let service_calls := filter is_service_call (calls (events (Delete env a cluster s))) in
  let operations := filter is_service_operation (calls (events (Delete env a cluster s))) in
  match on_NewScope env (scope_params a cluster s) s with
  | (inl _, _) => service_calls = [] /\ operations = []
  | (inr scope, s1) =>
      let resourcesSvc := fst (on_resources_NewService env scope s1) in
      service_calls = [call_resources_NewService scope;
                       call_DeleteResourceGroup resourcesSvc] /\
      operations = [call_DeleteResourceGroup resourcesSvc]
  end.
Proof.
  intros service_calls operations. subst service_calls operations.
  run; split; reflexivity.
Qed.

(** The store an operation leaves is the one its calls to the collaborators
    produce, one after the other: the operations write nothing themselves. *)
Lemma final_is_replay (a cluster : ptr) (s : Store T) :
  final (Reconcile env a cluster s) =
    replay env (calls (events (Reconcile env a cluster s))) s /\
  final (Delete env a cluster s) =
    replay env (calls (events (Delete env a cluster s))) s.
Proof.
  split; run;
    repeat (match goal with
            | E : ?h = (_, _) |- context [?h] => rewrite E
            end; cbn);
    reflexivity.
Qed.

Lemma effect_preserves {A : Type} (f : Store T -> A) (c : Call T) (s : Store T) :
  preserve env f -> f (effect env c s) = f s.
Proof.
  intros (P1 & P2 & P3 & P4 & P5 & P6 & P7 & P8 & P9 & P10).
  destruct c; cbn; auto.
Qed.

Lemma replay_preserves {A : Type} (f : Store T -> A) (cs : list (Call T)) :
  preserve env f -> forall s, f (replay env cs s) = f s.
Proof.
  intros P. induction cs as [|c cs IH]; intros s; cbn.
  - reflexivity.
  - rewrite IH. apply effect_preserves. exact P.
Qed.

(** What the collaborators leave as it is, the two operations leave as it
    is. *)
Lemma frame {A : Type} (f : Store T -> A) (a cluster : ptr) (s : Store T) :
  preserve env f ->
  f (final (Reconcile env a cluster s)) = f s /\
  f (final (Delete env a cluster s)) = f s.
Proof.
  intros P. destruct (final_is_replay a cluster s) as [R D].
  rewrite R, D. split; apply replay_preserves; exact P.
Qed.

(** C8. [Reconcile] and [Delete] write nothing themselves, neither to the
    actuator (its deployer and its client) nor to the cluster record they
    are given: the store after each entry of the history is the one its
    call to a collaborator produces from the store before it, and the store
    an operation returns in is the one its calls produce from the initial
    store, one after the other.  In particular the actuator [a] and the
    record of [cluster] are, on return, what the calls to the collaborators
    left of them. *)
Theorem operations_write_nothing_themselves (a cluster : ptr) (s : Store T) :
  (map ev_store (events (Reconcile env a cluster s)) =
     stores_along env (calls (events (Reconcile env a cluster s))) s /\
   final (Reconcile env a cluster s) =
     replay env (calls (events (Reconcile env a cluster s))) s /\
   actuators (final (Reconcile env a cluster s)) a =
     actuators (replay env (calls (events (Reconcile env a cluster s))) s) a /\
   clusters (final (Reconcile env a cluster s)) cluster =
     clusters (replay env (calls (events (Reconcile env a cluster s))) s) cluster) /\
  (map ev_store (events (Delete env a cluster s)) =
     stores_along env (calls (events (Delete env a cluster s))) s /\
   final (Delete env a cluster s) =
     replay env (calls (events (Delete env a cluster s))) s /\
   actuators (final (Delete env a cluster s)) a =
     actuators (replay env (calls (events (Delete env a cluster s))) s) a /\
   clusters (final (Delete env a cluster s)) cluster =
     clusters (replay env (calls (events (Delete env a cluster s))) s) cluster).
Proof.
  split; run;
    repeat (match goal with
            | E : ?h = (_, _) |- context [?h] => rewrite E
            end; cbn);
    repeat split; reflexivity.
Qed.

(** C2. When the scope is built, [Delete] returns nil if the deletion of the
    resource group returned nil, and otherwise a [RequeueAfterError] that
    carries the fixed delay: an error of that type, with no cause, not one
    built by [Errorf] or [Wrapf]. *)
Theorem Delete_requeues_on_failure
    (a cluster : ptr) (s s1 s2 s3 : Store T) (scope : Scope T)
    (resourcesSvc : ResourcesService T) (r : error) :
  on_NewScope env (scope_params a cluster s) s = (inr scope, s1) ->
  on_resources_NewService env scope s1 = (resourcesSvc, s2) ->
  on_DeleteResourceGroup env resourcesSvc s2 = (r, s3) ->
  match r with
  | None => value (Delete env a cluster s) = None
  | Some _ =>
      value (Delete env a cluster s) = Some (RequeueAfterError requeue_delay) /\
      exists e, value (Delete env a cluster s) = Some e /\
                is_RequeueAfterError e = true /\ Unwrap e = None
  end.
Proof.
  intros Hscope Hres Hdel.
  destruct r as [err|]; run.
  - split; [reflexivity|].
    exists (RequeueAfterError requeue_delay). repeat split; reflexivity.
  - reflexivity.
Qed.

(** C10. Whenever the deletion of the resource group fails, the error
    [Delete] returns carries 5000000000 nanoseconds, that is five times
    [time.Second], a value of [time.Duration]. *)
Theorem requeue_delay_is_five_seconds
    (a cluster : ptr) (s : Store T) (ev : Event T) (err : Err) :
  In ev (events (Delete env a cluster s)) ->
  is_DeleteResourceGroup (ev_call ev) = true ->
  ev_err ev = Some err ->
  value (Delete env a cluster s) = Some (RequeueAfterError 5000000000) /\
  (5000000000 = 5 * time_Second)%Z /\
  is_Duration 5000000000.
Proof.
  intros Hin Hcall Herr.
  assert (Hd : is_Duration 5000000000)
    by (unfold is_Duration, int64_min, int64_max; lia).
  revert Hin. run; intros Hin; cbn in Hin;
    repeat match goal with
           | H : _ \/ _ |- _ => destruct H as [<- | H]
           | H : False |- _ => destruct H
           end;
    cbn in Hcall, Herr; try discriminate;
    (split; [reflexivity | split; [reflexivity | exact Hd]]).
Qed.

(** C5, as the code has it.  An error that a step of [Reconcile] returns is
    the cause of the error [Reconcile] returns.  An error that the deletion
    of the resource group returns is written to the log by [Delete], which
    returns the requeue signal in its place. *)
Theorem service_errors_wrapped_or_logged
    (a cluster : ptr) (s : Store T) (ev : Event T) (err : Err) :
  is_service_operation (ev_call ev) = true ->
  ev_err ev = Some err ->
  (In ev (events (Reconcile env a cluster s)) ->
   exists e, value (Reconcile env a cluster s) = Some e /\
             Unwrap e = Some err /\ Cause e = Cause err) /\
  (In ev (events (Delete env a cluster s)) ->
   value (Delete env a cluster s) = Some (RequeueAfterError requeue_delay) /\
   In (call_klog_Errorf "Error deleting resource group: %v." [AError err])
      (calls (events (Delete env a cluster s)))).
Proof.
  intros Hcall Herr.
  split; run; intros Hin; cbn in Hin;
    repeat match goal with
           | H : _ \/ _ |- _ => destruct H as [<- | H]
           | H : False |- _ => destruct H
           end;
    cbn in Hcall, Herr; try discriminate;
    try (injection Herr as <-).
  all: try (eexists; repeat split; reflexivity).
  all: split; [reflexivity | cbn; tauto].
Qed.

End Properties.

(** ** The properties on the doubles *)

(** The scope fails: both operations return the scope error at once. *)
Lemma scope_failure_returns_at_once_witness :
  on_NewScope (scripted scope_fails) (scope_params 1 2 store0) store0
    = (inl boom, journal "NewScope" store0) /\
  value (Reconcile (scripted scope_fails) 1 2 store0)
    = Some (fundamental "failed to create scope: %+v" [AError boom]) /\
  value (Delete (scripted scope_fails) 1 2 store0)
    = Some (fundamental "failed to create scope: %+v" [AError boom]) /\
  filter is_service_call (calls (events (Reconcile (scripted scope_fails) 1 2 store0))) = [] /\
  filter is_service_call (calls (events (Delete (scripted scope_fails) 1 2 store0))) = [].
Proof.
  pose proof (scope_failure_returns_at_once (scripted scope_fails) 1 2 store0
                (journal "NewScope" store0) boom eq_refl) as H.
  cbv zeta in H.
  destruct H as (_ & (R1 & _ & R3 & _) & (D1 & _ & D3 & _)).
  split; [reflexivity|].
  repeat split; assumption.
Defined.

(** Everything succeeds: [Reconcile] returns nil. *)
Lemma Reconcile_returns_nil_on_success_witness :
  value (Reconcile (scripted all_succeed) 1 2 store0) = None /\
  final (Reconcile (scripted all_succeed) 1 2 store0)
    = on_Close (scripted all_succeed) 2
        (journal "ReconcileLoadBalancer api"
           (journal "ReconcileNetwork"
              (journal "ReconcileResourceGroup"
                 (journal "ReconcileCertificates" (journal "NewScope" store0))))).
Proof.
  apply (Reconcile_returns_nil_on_success (scripted all_succeed) 1 2 store0
           (journal "NewScope" store0) (journal "NewScope" store0)
           (journal "NewScope" store0) (journal "NewScope" store0)
           (journal "ReconcileCertificates" (journal "NewScope" store0))
           (journal "ReconcileResourceGroup"
              (journal "ReconcileCertificates" (journal "NewScope" store0)))
           (journal "ReconcileNetwork"
              (journal "ReconcileResourceGroup"
                 (journal "ReconcileCertificates" (journal "NewScope" store0))))
           (journal "ReconcileLoadBalancer api"
              (journal "ReconcileNetwork"
                 (journal "ReconcileResourceGroup"
                    (journal "ReconcileCertificates" (journal "NewScope" store0)))))
           2 2 2 2);
    reflexivity.
Defined.



(** The deletion fails: [Delete] returns the requeue signal. *)
Lemma Delete_requeues_on_failure_witness :
  value (Delete (scripted delete_fails) 1 2 store0)
    = Some (RequeueAfterError requeue_delay) /\
  exists e, value (Delete (scripted delete_fails) 1 2 store0) = Some e /\
            is_RequeueAfterError e = true /\ Unwrap e = None.
Proof.
  apply (Delete_requeues_on_failure (scripted delete_fails) 1 2 store0
           (journal "NewScope" store0) (journal "NewScope" store0)
           (journal "DeleteResourceGroup" (journal "NewScope" store0))
           2 2 (Some boom));
    reflexivity.
Defined.

Lemma requeue_delay_is_five_seconds_witness :
  In deletion_failure (events (Delete (scripted delete_fails) 1 2 store0)) /\
  value (Delete (scripted delete_fails) 1 2 store0) = Some (RequeueAfterError 5000000000).
Proof.
  assert (Hin : In deletion_failure (events (Delete (scripted delete_fails) 1 2 store0)))
    by (do 3 right; left; reflexivity).
  split; [exact Hin|].
  apply (requeue_delay_is_five_seconds (scripted delete_fails) 1 2 store0
           deletion_failure boom Hin eq_refl eq_refl).
Defined.

(** The network step fails with [boom]: [boom] is the cause of the error
    [Reconcile] returns. *)
Lemma service_errors_wrapped_or_logged_witness :
  In network_failure (events (Reconcile (scripted network_fails) 1 2 store0)) /\
  exists e, value (Reconcile (scripted network_fails) 1 2 store0) = Some e /\
            Unwrap e = Some boom /\ Cause e = Cause boom.
Proof.
  assert (Hin : In network_failure (events (Reconcile (scripted network_fails) 1 2 store0)))
    by (do 7 right; left; reflexivity).
  split; [exact Hin|].
  apply (proj1 (service_errors_wrapped_or_logged (scripted network_fails) 1 2 store0
                  network_failure boom eq_refl eq_refl)).
  exact Hin.
Defined.

(** C5, as stated, fails on [Delete]: the deletion of the resource group
    returns [boom], and the error [Delete] returns is the requeue signal,
    which has no cause and whose root cause is not [boom]. *)
Lemma Delete_drops_the_deletion_error :
  In deletion_failure (events (Delete (scripted delete_fails) 1 2 store0)) /\
  is_service_operation (ev_call deletion_failure) = true /\
  ev_err deletion_failure = Some boom /\
  value (Delete (scripted delete_fails) 1 2 store0) = Some (RequeueAfterError 5000000000) /\
  Unwrap (RequeueAfterError 5000000000) = None /\
  Cause (RequeueAfterError 5000000000) <> boom /\
  ~ (exists e, value (Delete (scripted delete_fails) 1 2 store0) = Some e /\
               Unwrap e = Some boom).
Proof.
  split; [do 3 right; left; reflexivity|].
  repeat split; try reflexivity.
  - discriminate.
  - intros (e & He & Hu). cbv in He. injection He as <-. discriminate Hu.
Qed.

(** ** Further properties of the two operations *)

(** Cases on the membership of an entry in a history given by its entries. *)
Ltac in_cases H :=
  cbn in H;
  repeat match type of H with
         | _ \/ _ => destruct H as [<- | H]
         | False => destruct H
         end.

Ltac forall_cases :=
  repeat match goal with
         | H : Forall _ (_ :: _) |- _ => inversion H; clear H; subst
         end.

Section Further.

Context {T : Imports} (env : Collaborators T).

(** X1. [Reconcile] returns nil exactly when its history holds the four
    steps, in order, and each of them returned nil: a nil result means that
    every step ran and succeeded. *)
Theorem Reconcile_nil_iff_all_steps_nil (a cluster : ptr) (s : Store T) :
  value (Reconcile env a cluster s) = None <->
  map fst (step_events (events (Reconcile env a cluster s))) = reconcile_order /\
  Forall (fun p => ev_err (snd p) = None)
         (step_events (events (Reconcile env a cluster s))).
Proof.
  run; (split; [intros H | intros [Ho Hf]]);
    try discriminate; cbn in *; forall_cases; cbn in *; try discriminate.
  - split; [reflexivity | repeat constructor].
  - reflexivity.
Qed.

(** X2. [Delete] returns nil exactly when its history holds a deletion of
    the resource group that returned nil. *)
Theorem Delete_nil_iff_deletion_nil (a cluster : ptr) (s : Store T) :
  value (Delete env a cluster s) = None <->
  exists ev, In ev (events (Delete env a cluster s)) /\
             is_DeleteResourceGroup (ev_call ev) = true /\
             ev_err ev = None.
Proof.
  run; (split; [intros H | intros (ev & Hin & Hc & He)]);
    try discriminate; try reflexivity.
  - in_cases Hin; cbn in Hc, He; discriminate.
  - in_cases Hin; cbn in Hc, He; discriminate.
  - eexists; split; [do 3 right; left; reflexivity|]. split; reflexivity.
Qed.

(** X3. An error [Reconcile] returns is never a requeue signal: it is the
    scope error built by [Errorf], or a step's error wrapped by [Wrapf] with
    the message of one of the four steps.  A requeue signal returned by a
    step reaches the caller wrapped, as the cause of a terminal error. *)
Theorem Reconcile_error_is_terminal (a cluster : ptr) (s : Store T) (e : Err) :
  value (Reconcile env a cluster s) = Some e ->
  is_RequeueAfterError e = false /\
  ((exists err, e = fundamental "failed to create scope: %+v" [AError err]) \/
   (exists cause st name,
       e = withMessage cause (failure_format st) [AString name] /\
       In st reconcile_order)).
Proof.
  run; intros H; try discriminate; injection H as <-;
    (split; [reflexivity|]).
  - left. eexists. reflexivity.
  - right. exists e0, step_certificates. eexists.
    split; [reflexivity | cbn; tauto].
  - right. exists e0, step_resource_group. eexists.
    split; [reflexivity | cbn; tauto].
  - right. exists e0, step_network. eexists.
    split; [reflexivity | cbn; tauto].
  - right. exists e0, (step_load_balancer "api"). eexists.
    split; [reflexivity | cbn; tauto].
Qed.

(** X4. An error [Delete] returns is the scope error built by [Errorf] or
    the requeue signal with the fixed delay, and nothing else: [Delete]
    never returns an error with a cause. *)
Theorem Delete_error_is_scope_error_or_requeue
    (a cluster : ptr) (s : Store T) (e : Err) :
  value (Delete env a cluster s) = Some e ->
  Unwrap e = None /\
  ((exists err, e = fundamental "failed to create scope: %+v" [AError err] /\
                fst (on_NewScope env (scope_params a cluster s) s) = inl err) \/
   e = RequeueAfterError requeue_delay).
Proof.
  run; intros H; try discriminate; injection H as <-;
    (split; [reflexivity|]).
  - left. eexists. split; reflexivity.
  - right. reflexivity.
Qed.

(** X5. What the operations write to the log.  [Reconcile] writes one line,
    the informational line with the name the cluster has on entry, and never
    an error line.  [Delete] writes the same informational line and then one
    error line for a deletion of the resource group that failed, with the
    error it returned. *)
Theorem lines_logged (a cluster : ptr) (s : Store T) :
  filter is_log (calls (events (Reconcile env a cluster s))) = [first_line cluster s] /\
  filter is_log (calls (events (Delete env a cluster s))) =
    first_line cluster s ::
    flat_map deletion_error_line (events (Delete env a cluster s)).
Proof.
  split; run; reflexivity.
Qed.

(** X6. The calls of [Reconcile] once the scope is built: the log line,
    [NewScope], the network, resources and certificates services built from
    the scope in that order, whatever the steps return, then the first [n]
    steps, each on the service of its package (the load balancer on the
    same network service as the network), then [Close]. *)
Theorem Reconcile_calls
    (a cluster : ptr) (s s1 s2 s3 s4 : Store T) (scope : Scope T)
    (networkSvc : NetworkService T) (resourcesSvc : ResourcesService T)
    (certSvc : CertificatesService T) :
  on_NewScope env (scope_params a cluster s) s = (inr scope, s1) ->
  on_network_NewService env scope s1 = (networkSvc, s2) ->
  on_resources_NewService env scope s2 = (resourcesSvc, s3) ->
  on_certificates_NewService env scope s3 = (certSvc, s4) ->
  exists n, 1 <= n <= 4 /\
    calls (events (Reconcile env a cluster s)) =
      ([first_line cluster s; call_NewScope (scope_params a cluster s);
        call_network_NewService scope; call_resources_NewService scope;
        call_certificates_NewService scope]
       ++ map (step_call networkSvc resourcesSvc certSvc) (firstn n reconcile_order)
       ++ [call_Close scope])%list.
Proof.
  intros Hscope Hnet Hres Hcert.
  run.
  - exists 1. split; [lia | reflexivity].
  - exists 2. split; [lia | reflexivity].
  - exists 3. split; [lia | reflexivity].
  - exists 4. split; [lia | reflexivity].
  - exists 4. split; [lia | reflexivity].
Qed.

(** X7. The calls of [Delete] once the scope is built: the log line,
    [NewScope], the resources service, the deletion of the resource group,
    the error line when the deletion failed, then [Close]. *)
Theorem Delete_calls
    (a cluster : ptr) (s s1 s2 s3 : Store T) (scope : Scope T)
    (resourcesSvc : ResourcesService T) (r : error) :
  on_NewScope env (scope_params a cluster s) s = (inr scope, s1) ->
  on_resources_NewService env scope s1 = (resourcesSvc, s2) ->
  on_DeleteResourceGroup env resourcesSvc s2 = (r, s3) ->
  calls (events (Delete env a cluster s)) =
    ([first_line cluster s; call_NewScope (scope_params a cluster s);
      call_resources_NewService scope; call_DeleteResourceGroup resourcesSvc]
     ++ match r with
        | Some err => [call_klog_Errorf "Error deleting resource group: %v." [AError err]]
        | None => []
        end
     ++ [call_Close scope])%list.
Proof.
  intros Hscope Hres Hdel.
  destruct r as [err|]; run; reflexivity.
Qed.

(** X8. The history is consistent with the collaborators: the store of each
    entry is the one its call produces from the store of the entry before
    (from the initial store for the first), so each call runs where the one
    before it stopped and the operations write nothing in between. *)
Theorem stores_follow_calls (a cluster : ptr) (s : Store T) :
  map ev_store (events (Reconcile env a cluster s)) =
    stores_along env (calls (events (Reconcile env a cluster s))) s /\
  map ev_store (events (Delete env a cluster s)) =
    stores_along env (calls (events (Delete env a cluster s))) s.
Proof.
  split; run;
    repeat (match goal with
            | E : ?h = (_, _) |- context [?h] => rewrite E
            end; cbn);
    reflexivity.
Qed.

(** X9. [Reconcile] never deletes: on no path, a failed step included, does
    it invoke the deletion of the resource group. *)
Theorem Reconcile_never_deletes (a cluster : ptr) (s : Store T) :
  filter is_DeleteResourceGroup (calls (events (Reconcile env a cluster s))) = [] /\
  forall ev, In ev (events (Reconcile env a cluster s)) ->
             is_DeleteResourceGroup (ev_call ev) = false.
Proof.
  split; [run; reflexivity|].
  run; intros ev Hin; in_cases Hin; reflexivity.
Qed.

(** X10. [Reconcile] and [Delete] begin in the same way: their first two
    entries, the log line and the construction of the scope, are the same
    entries, with the same results and stores. *)
Theorem same_beginning (a cluster : ptr) (s : Store T) :
  firstn 2 (events (Reconcile env a cluster s)) =
  firstn 2 (events (Delete env a cluster s)) /\
  length (firstn 2 (events (Reconcile env a cluster s))) = 2.
Proof.
  run; split; reflexivity.
Qed.

(** X12. What [Close] does has no part in the result: with any other
    [Close], [Reconcile] and [Delete] return the same error and make the
    same calls.  The deferred [Close] runs after the result is computed and
    returns nothing the operations could report. *)
Theorem result_independent_of_Close
    (close : Scope T -> Store T -> Store T) (a cluster : ptr) (s : Store T) :
  (value (Reconcile (with_Close env close) a cluster s) = value (Reconcile env a cluster s) /\
   calls (events (Reconcile (with_Close env close) a cluster s))
     = calls (events (Reconcile env a cluster s))) /\
  (value (Delete (with_Close env close) a cluster s) = value (Delete env a cluster s) /\
   calls (events (Delete (with_Close env close) a cluster s))
     = calls (events (Delete env a cluster s))).
Proof.
  unfold with_Close.
  split; run; split; reflexivity.
Qed.

End Further.

Section ConstructorProperties.

Context {T : Imports} {G : Type}.
Variable actuators_DefaultScopeGetter : G.
Variable deployer_New : deployer_Params G -> DeployerT T.
Variable env : Collaborators T.

(** X11. The client given to [NewActuator] is the one the scope is built
    with: for an actuator built by [NewActuator params], the second call of
    [Reconcile] and of [Delete] is [NewScope] with the cluster they were
    given and [params.Client].  The deployer of that actuator is the one
    [deployer.New] builds from the default scope getter, whatever the
    parameters. *)
Theorem NewActuator_client_builds_the_scope
    (params : ActuatorParams T) (a cluster : ptr) (s : Store T) :
  actuators s a = NewActuator actuators_DefaultScopeGetter deployer_New params ->
  let p := {| ScopeParams_Cluster := cluster;
              ScopeParams_Client := ActuatorParams_Client params |} in
  nth_error (calls (events (Reconcile env a cluster s))) 1 = Some (call_NewScope p) /\
  nth_error (calls (events (Delete env a cluster s))) 1 = Some (call_NewScope p) /\
  Deployer (actuators s a) =
    deployer_New {| Params_ScopeGetter := actuators_DefaultScopeGetter |}.
Proof.
  intros Ha p. subst p.
  assert (Hc : client (actuators s a) = ActuatorParams_Client params)
    by (rewrite Ha; reflexivity).
  split; [|split].
  - run; rewrite Hc; reflexivity.
  - run; rewrite Hc; reflexivity.
  - rewrite Ha. reflexivity.
Qed.

End ConstructorProperties.

(** ** The further properties on the doubles *)

(** A step that asks for a retry: [Reconcile] returns a terminal error. *)
Lemma Reconcile_error_is_terminal_witness :
  value (Reconcile (scripted load_balancer_requeues) 1 2 store0)
    = Some (withMessage (RequeueAfterError 30)
              "failed to reconcile load balancers for cluster %q"
              [AString "test-cluster"]) /\
  is_RequeueAfterError
    (withMessage (RequeueAfterError 30)
       "failed to reconcile load balancers for cluster %q"
       [AString "test-cluster"]) = false.
Proof.
  split; [reflexivity|].
  exact (proj1 (Reconcile_error_is_terminal (scripted load_balancer_requeues)
                  1 2 store0 _ eq_refl)).
Defined.

Lemma Delete_error_is_scope_error_or_requeue_witness :
  value (Delete (scripted delete_fails) 1 2 store0)
    = Some (RequeueAfterError requeue_delay) /\
  Unwrap (RequeueAfterError requeue_delay) = None.
Proof.
  split; [reflexivity|].
  exact (proj1 (Delete_error_is_scope_error_or_requeue (scripted delete_fails)
                  1 2 store0 _ eq_refl)).
Defined.

(** The certificates step fails: the three services are built all the
    same, and one step is invoked. *)
Lemma Reconcile_calls_witness :
  exists n, 1 <= n <= 4 /\
    calls (events (Reconcile (scripted certificates_fail) 1 2 store0)) =
      ([first_line 2 store0; call_NewScope (scope_params 1 2 store0);
        @call_network_NewService Doubles 2; @call_resources_NewService Doubles 2;
        @call_certificates_NewService Doubles 2]
       ++ map (@step_call Doubles 2 2 2) (firstn n reconcile_order)
       ++ [@call_Close Doubles 2])%list.
Proof.
  apply (Reconcile_calls (scripted certificates_fail) 1 2 store0
           (journal "NewScope" store0) (journal "NewScope" store0)
           (journal "NewScope" store0) (journal "NewScope" store0) 2 2 2 2);
    reflexivity.
Defined.

Lemma Delete_calls_witness :
  calls (events (Delete (scripted delete_fails) 1 2 store0)) =
    [first_line 2 store0; call_NewScope (scope_params 1 2 store0);
     @call_resources_NewService Doubles 2; @call_DeleteResourceGroup Doubles 2;
     call_klog_Errorf "Error deleting resource group: %v." [AError boom];
     @call_Close Doubles 2].
Proof.
  apply (Delete_calls (scripted delete_fails) 1 2 store0
           (journal "NewScope" store0) (journal "NewScope" store0)
           (journal "DeleteResourceGroup" (journal "NewScope" store0))
           2 2 (Some boom));
    reflexivity.
Defined.

(** The actuator of [store0] is the one [NewActuator] builds around the
    client 7. *)
Lemma NewActuator_client_builds_the_scope_witness :
  nth_error (calls (events (Reconcile (scripted all_succeed) 1 2 store0))) 1
    = Some (call_NewScope (@Build_ScopeParams Doubles 2 7)) /\
  nth_error (calls (events (Delete (scripted all_succeed) 1 2 store0))) 1
    = Some (call_NewScope (@Build_ScopeParams Doubles 2 7)).
Proof.
  destruct (NewActuator_client_builds_the_scope (T := Doubles) tt (fun _ => tt)
              (scripted all_succeed) (@Build_ActuatorParams Doubles 7) 1 2 store0
              eq_refl) as (R & D & _).
  split; assumption.
Defined.
